(** * Calendar component of react-native-ui-kitten

    A shallow embedding of
    [src/framework/ui/calendar/calendar.component.tsx]: the view-mode state
    machine, the handlers that move the visible date, the disabling
    predicates, the pager indices and the month / year picker grids,
    together with the properties the specification states about them.

    The component is generic in the date type [D] and reaches dates only
    through the [DateService] capability interface, which is kept abstract
    here (a type class); a calendar over year / month / day triples
    instantiates it where a concrete date service is needed. *)

From stdpp Require Import base decidable option list numbers strings pretty.
From Stdlib Require Import ZArith Lia.

Set Default Proof Using "Type*".

(** ** [type.ts]: the view modes *)

Module CalendarViewModes.

(** The three view modes; the source compares them by their [id]. *)
Inductive CalendarViewMode : Set := DATE | MONTH | YEAR.

#[global] Instance CalendarViewMode_eq_dec : EqDecision CalendarViewMode.
Proof. solve_decision. Defined.

(** Modelled from the spec: [type.ts] is not part of the sources at hand.
    "Drill-down" transition: Year -> Month -> Day -> Day (saturates at
    Day). *)
Definition pickNext (mode : CalendarViewMode) : CalendarViewMode :=
  match mode with
  | YEAR => MONTH
  | MONTH => DATE
  | DATE => DATE
  end.

(** Modelled from the spec: [type.ts] is not part of the sources at hand.
    "Cycle" transition used when the header title is pressed:
    Day -> Month -> Year -> Day (wraps). *)
Definition navigationNext (mode : CalendarViewMode) : CalendarViewMode :=
  match mode with
  | DATE => MONTH
  | MONTH => YEAR
  | YEAR => DATE
  end.

End CalendarViewModes.

Export CalendarViewModes.

(** ** [service/helpers]: [range] and [batch] *)

Module Helpers.

Section helpers.
Context {T : Type}.

(** Modelled from the spec: [service/helpers] is not part of the sources at
    hand. "generate 12 sequential months" / "a fixed window (12) of
    sequential years": [range bound producer] is the sequence
    [producer 0, ..., producer (bound - 1)]. *)
Definition range (bound : nat) (producer : Z → T) : list T :=
  (λ index : nat, producer (Z.of_nat index)) <$> seq 0 bound.

(** Modelled from the spec: [service/helpers] is not part of the sources at
    hand. "All batching is a generic chunk sequence into fixed-size rows
    operation": a row is cut off the front of the sequence until nothing is
    left. The recursion is on the number of cells still to place. *)
Fixpoint batch_rows (fuel : nat) (target : list T) (batchSize : nat)
  : list (list T) :=
  match fuel, target with
  | O, _ => []
  | _, [] => []
  | S fuel', _ :: _ =>
      take batchSize target :: batch_rows fuel' (drop batchSize target) batchSize
  end.

Definition batch (target : list T) (batchSize : nat) : list (list T) :=
  batch_rows (length target) target batchSize.

End helpers.

(** Rows needed for [n] cells in rows of [w]: the ceiling of [n / w]. *)
Definition ceil_div (n w : nat) : nat := (n + w - 1) / w.

End Helpers.

Export Helpers.

(** ** [service/date.service]: the date capability interface *)

(** The component receives its date service as a property and never builds
    or inspects a date by itself. Numbers that the service returns (years,
    months, days of month, comparison results) are integers. [today] is the
    reading of the clock, taken as fixed during one interaction. *)
Class DateService (D : Type) : Type := {
  today : D;
  getYear : D → Z;
  getMonth : D → Z;
  getDate : D → Z;
  createDate : Z → Z → Z → D;
  getYearStart : D → D;
  getYearEnd : D → D;
  getMonthStart : D → D;
  addMonth : D → Z → D;
  addYear : D → Z → D;
  compareDates : D → D → Z;
  isBetweenIncludingSafe : D → D → D → bool;
}.

(** What a date service guarantees when its dates are whole days, without
    a time of day: the end of a year is then the last date of the year.
    Months are 0-based. *)
Class DateServiceLaws (D : Type) `{DateService D} : Prop := {
  isBetweenIncludingSafe_spec d a b :
    isBetweenIncludingSafe d a b = true
    ↔ (0 ≤ compareDates d a ∧ compareDates d b ≤ 0)%Z;
  compareDates_getYearStart d a :
    (0 ≤ compareDates d (getYearStart a))%Z ↔ (getYear a ≤ getYear d)%Z;
  compareDates_getYearEnd d b :
    (compareDates d (getYearEnd b) ≤ 0)%Z ↔ (getYear d ≤ getYear b)%Z;
  getYear_getYearStart d : getYear (getYearStart d) = getYear d;
  getYear_getYearEnd d : getYear (getYearEnd d) = getYear d;
  getMonth_range d : (0 ≤ getMonth d < 12)%Z;
  getDate_range d : (1 ≤ getDate d ≤ 31)%Z;
  getYear_getMonthStart d : getYear (getMonthStart d) = getYear d;
  getYear_createDate y m d :
    (0 ≤ m < 12)%Z → (1 ≤ d ≤ 31)%Z → getYear (createDate y m d) = y;
  getYear_addMonth d i :
    (0 ≤ i < 12)%Z → getYear (addMonth (getYearStart d) i) = getYear d;
  getYear_addYear d k :
    getYear (addYear (getYearStart d) k) = (getYear d + k)%Z;
}.

(** Modelled from the spec: [DateService.MONTHS_IN_YEAR] lives in
    [service/date.service], which is not part of the sources at hand; the
    month picker shows "12 sequential months". *)
Definition MONTHS_IN_YEAR : nat := 12.

(** ** [calendar.component.tsx] *)

Module Calendar.

Definition MONTHS_IN_COLUMN : nat := 4.
Definition YEARS_IN_COLUMN : nat := 4.
Definition YEARS_IN_VIEW : nat := 12.

(** [ComponentProps<D>], without the rendering callbacks. An omitted
    property is [None]. [filter] is host code and may throw: it returns
    [None] then. [onSelect] is host code as well: it acts on the state [H]
    of the hosting application. *)
Record CalendarProps (D H : Type) : Type := {
  props_min : option D;
  props_max : option D;
  props_date : option D;
  props_boundingMonth : bool;
  props_startView : CalendarViewMode;
  props_filter : option (D → option bool);
  props_onSelect : option (D → H → H);
}.

Arguments props_min {D H} _.
Arguments props_max {D H} _.
Arguments props_date {D H} _.
Arguments props_boundingMonth {D H} _.
Arguments props_startView {D H} _.
Arguments props_filter {D H} _.
Arguments props_onSelect {D H} _.

(** [State<D>]. *)
Record State (D : Type) : Type := {
  viewMode : CalendarViewMode;
  visibleDate : D;
}.

Arguments Build_State {D} _ _.
Arguments viewMode {D} _.
Arguments visibleDate {D} _.

(** [static defaultProps], with every optional property omitted. *)
Definition defaultProps {D H : Type} : CalendarProps D H :=
  {| props_min := None;
     props_max := None;
     props_date := None;
     props_boundingMonth := false;
     props_startView := DATE;
     props_filter := None;
     props_onSelect := None |}.

Section component.
Context {D H : Type} `{DateService D}.
Variable props : CalendarProps D H.

Local Open Scope Z_scope.

(** [public state = { viewMode: startView, visibleDate: getMonthStart(today()) }] *)
Definition initialState : State D :=
  {| viewMode := props_startView props;
     visibleDate := getMonthStart today |}.

(** [get min()], [get max()], [get date()]: [props.x || default]. *)
Definition min : D := default (getYearStart today) (props_min props).
Definition max : D := default (getYearEnd today) (props_max props).
Definition date : D := default today (props_date props).

(** [onDateSelect]: no [setState]; the callback, when there is one, runs on
    the host. *)
Definition onDateSelect (date : D) (s : State D) (host : H) : State D * H :=
  match props_onSelect props with
  | Some onSelect => (s, onSelect date host)
  | None => (s, host)
  end.

Definition onMonthSelect (date : D) (s : State D) : State D :=
  let nextVisibleDate :=
    createDate (getYear (visibleDate s)) (getMonth date)
               (getDate (visibleDate s)) in
  {| viewMode := pickNext (viewMode s);
     visibleDate := nextVisibleDate |}.

Definition onYearSelect (date : D) (s : State D) : State D :=
  let nextVisibleDate :=
    createDate (getYear date) (getMonth (visibleDate s))
               (getDate (visibleDate s)) in
  {| viewMode := pickNext (viewMode s);
     visibleDate := nextVisibleDate |}.

Definition onTodayPress (s : State D) : State D :=
  {| viewMode := DATE;
     visibleDate := today |}.

Definition onPickerNavigationPress (s : State D) : State D :=
  {| viewMode := navigationNext (viewMode s);
     visibleDate := visibleDate s |}.

(** [isDateFitsFilter]: [props.filter && !props.filter(date) || false]. *)
Definition isDateFitsFilter (date : D) : option bool :=
  match props_filter props with
  | Some filter => negb <$> filter date
  | None => Some false
  end.

Definition isDateFitsBounds (date : D) : bool :=
  isBetweenIncludingSafe date min max.

(** [!isDateFitsBounds(date) || isDateFitsFilter(date)]: the right operand
    is evaluated only when the left one is false. *)
Definition isDayDisabled (date : D) : option bool :=
  if negb (isDateFitsBounds date) then Some true else isDateFitsFilter date.

Definition isMonthDisabled (date : D) : option bool :=
  if negb (isDateFitsBounds date) then Some true else isDateFitsFilter date.

Definition isYearDisabled (date : D) : option bool :=
  if negb (isDateFitsBounds date) then Some true else isDateFitsFilter date.

Definition isDayPickerInViewPort (s : State D) (index : Z) : bool :=
  let visibleDayPickerIndex := getMonth (visibleDate s) in
  (index =? visibleDayPickerIndex)
  || (Z.abs (index - visibleDayPickerIndex) =? 1).

Definition isYearPickerInViewPort (s : State D) (index : Z) : bool :=
  let numberOfYears := getYear (visibleDate s) - getYear min in
  let visibleYearPickerIndex := numberOfYears / Z.of_nat YEARS_IN_VIEW in
  (index =? visibleYearPickerIndex)
  || (Z.abs (index - visibleYearPickerIndex) =? 1).

(** [selectedIndex] handed to the pager by [renderDayPickerPagerElement]. *)
Definition visibleDayPickerIndex (s : State D) : Z :=
  getMonth (visibleDate s).

(** [selectedIndex] handed to the pager by [renderYearPickerPagerElement]:
    [Math.floor(numberOfYears / YEARS_IN_VIEW)]. *)
Definition visibleYearPickerIndex (s : State D) : Z :=
  let numberOfYears := getYear (visibleDate s) - getYear min in
  numberOfYears / Z.of_nat YEARS_IN_VIEW.

Definition createMonthPickerData (date : D) : list (list D) :=
  let yearStart := getYearStart date in
  let monthRange := range MONTHS_IN_YEAR (λ index, addMonth yearStart index) in
  batch monthRange MONTHS_IN_COLUMN.

Definition createYearPickerData (date : D) : list (list D) :=
  let yearStart := getYearStart date in
  let yearRange := range YEARS_IN_VIEW (λ index, addYear yearStart index) in
  batch yearRange YEARS_IN_COLUMN.


Definition onDatePickerPagerSelect (index : Z) (s : State D) : State D :=
  let yearStart := getYearStart (visibleDate s) in
  {| viewMode := viewMode s;
     visibleDate := addMonth yearStart index |}.

(** [onYearPickerPagerSelect] reads [this.props.min], not the getter
    [this.min]: with [min] omitted the date service is handed [undefined],
    which is no date, and the model has no next state. *)
Definition onYearPickerPagerSelect (index : Z) (s : State D)
  : option (State D) :=
  yearStart ← getYearStart <$> props_min props;
  Some {| viewMode := viewMode s;
          visibleDate := addYear yearStart (index * Z.of_nat YEARS_IN_VIEW) |}.

(** Modelled from the spec: the picker and its cells
    ([components/picker]) are not part of the sources at hand. "Selecting a
    date outside [min, max] has no effect if the cell is disabled": a press
    on a cell reaches the picker's [onSelect] only when [isItemDisabled]
    says the cell is enabled. The disabling predicate runs when the cell is
    rendered, so a throwing filter leaves no cell to press. *)
Definition pressCell {S : Type} (isItemDisabled : D → option bool)
    (onSelect : D → S → S) (date : D) (s : S) : option S :=
  disabled ← isItemDisabled date;
  Some (if disabled : bool then s else onSelect date s).

(** The wiring of [renderDatePickerElement], [renderMonthPickerElement] and
    [renderYearPickerElement]. *)
Definition pressDayCell (date : D) (sh : State D * H) : option (State D * H) :=
  pressCell isDayDisabled (λ d sh, onDateSelect d sh.1 sh.2) date sh.

Definition pressMonthCell (date : D) (s : State D) : option (State D) :=
  pressCell isMonthDisabled onMonthSelect date s.

Definition pressYearCell (date : D) (s : State D) : option (State D) :=
  pressCell isYearDisabled onYearSelect date s.

(** *** The component as a transition system

    The handlers that call [setState]. *)
Inductive Action : Type :=
  | MonthSelect (date : D)
  | YearSelect (date : D)
  | DatePickerPagerSelect (index : Z)
  | YearPickerPagerSelect (index : Z)
  | TodayPress
  | PickerNavigationPress.

Definition perform (a : Action) (s : State D) : option (State D) :=
  match a with
  | MonthSelect date => Some (onMonthSelect date s)
  | YearSelect date => Some (onYearSelect date s)
  | DatePickerPagerSelect index => Some (onDatePickerPagerSelect index s)
  | YearPickerPagerSelect index => onYearPickerPagerSelect index s
  | TodayPress => Some (onTodayPress s)
  | PickerNavigationPress => Some (onPickerNavigationPress s)
  end.

(** States reached from the initial one by actions that [ok] lets through. *)
Inductive reachable (ok : State D → Action → Prop) : State D → Prop :=
  | reachable_init : reachable ok initialState
  | reachable_step s a s' :
      reachable ok s → ok s a → perform a s = Some s' → reachable ok s'.

(** No restriction: whatever the handlers accept. *)
Definition any_action (s : State D) (a : Action) : Prop := True.

End component.

Arguments Action D : clear implicits.

End Calendar.

(** ** A date service over year / month / day triples

    The proleptic Gregorian calendar with 0-based months, as the native
    date type of the platform counts them. It serves as the concrete date
    service wherever a property is exercised on actual dates. *)

Module GregorianDate.

Local Open Scope Z_scope.

Record ymd : Set := YMD { year : Z; month : Z; day : Z }.

Definition isLeapYear (y : Z) : bool :=
  (y mod 4 =? 0) && (negb (y mod 100 =? 0) || (y mod 400 =? 0)).

Definition daysInMonth (y m : Z) : Z :=
  if m =? 1 then (if isLeapYear y then 29 else 28)
  else if (m =? 3) || (m =? 5) || (m =? 8) || (m =? 10) then 30
  else 31.

Definition valid (t : ymd) : bool :=
  (0 <=? month t) && (month t <? 12)
  && (1 <=? day t) && (day t <=? daysInMonth (year t) (month t)).

(** Dates are the valid triples. *)
Definition date : Set := { t : ymd | Is_true (valid t) }.

Definition epoch : date := YMD 1970 0 1 ↾ I.

(** An invalid triple falls back to the epoch. *)
Definition mk (t : ymd) : date :=
  match decide (Is_true (valid t)) with
  | left Hvalid => t ↾ Hvalid
  | right _ => epoch
  end.

Definition ymd_compare (a b : ymd) : Z :=
  match year a ?= year b with
  | Lt => -1
  | Gt => 1
  | Eq =>
      match month a ?= month b with
      | Lt => -1
      | Gt => 1
      | Eq =>
          match day a ?= day b with
          | Lt => -1
          | Gt => 1
          | Eq => 0
          end
      end
  end.

(** A day of month past the end of the month rolls over into the next
    month, and past the end of December into January of the next year, as
    the native constructor does. *)
Definition ymd_create (y m d : Z) : ymd :=
  if d <=? daysInMonth y m then YMD y m d
  else if m =? 11 then YMD (y + 1) 0 (d - daysInMonth y m)
  else YMD y (m + 1) (d - daysInMonth y m).

(** Moving by months keeps the day of month, cut to the length of the month
    arrived at. *)
Definition ymd_addMonth (t : ymd) (n : Z) : ymd :=
  let k := month t + n in
  let y := year t + k / 12 in
  let m := k mod 12 in
  YMD y m (Z.min (day t) (daysInMonth y m)).

(** Moving by years keeps month and day of month; 29 February rolls over to
    1 March in a year that is not a leap year. *)
Definition ymd_addYear (t : ymd) (n : Z) : ymd :=
  ymd_create (year t + n) (month t) (day t).

(** The service, for a given reading [now] of the clock. *)
Definition service (now : date) : DateService date :=
  {| today := now;
     getYear t := year (`t);
     getMonth t := month (`t);
     getDate t := day (`t);
     createDate y m d := mk (ymd_create y m d);
     getYearStart t := mk (YMD (year (`t)) 0 1);
     getYearEnd t := mk (YMD (year (`t)) 11 31);
     getMonthStart t := mk (YMD (year (`t)) (month (`t)) 1);
     addMonth t n := mk (ymd_addMonth (`t) n);
     addYear t n := mk (ymd_addYear (`t) n);
     compareDates a b := ymd_compare (`a) (`b);
     isBetweenIncludingSafe d a b :=
       (0 <=? ymd_compare (`d) (`a)) && (ymd_compare (`d) (`b) <=? 0) |}.

(** 2 November 2026, a clock reading used in the examples. *)
Definition nov_2_2026 : date := mk (YMD 2026 10 2).

(** The service with the clock stopped at that day. *)
#[export] Instance service_nov_2_2026 : DateService date := service nov_2_2026.

(** A host that keeps the dates it was notified of, oldest first. *)
Definition host_log : Set := list date.

Definition log_selection (d : date) (log : host_log) : host_log := log ++ [d].

(** A calendar that only lets the year 2030 be picked. *)
Definition props_2030 : Calendar.CalendarProps date host_log :=
  {| Calendar.props_min := Some (mk (YMD 2030 0 1));
     Calendar.props_max := Some (mk (YMD 2030 11 31));
     Calendar.props_date := None;
     Calendar.props_boundingMonth := false;
     Calendar.props_startView := DATE;
     Calendar.props_filter := None;
     Calendar.props_onSelect := None |}.

(** A calendar for the years 2020 to 2045 whose filter throws and whose
    host logs the selected dates. *)
Definition props_2020_2045 : Calendar.CalendarProps date host_log :=
  {| Calendar.props_min := Some (mk (YMD 2020 0 1));
     Calendar.props_max := Some (mk (YMD 2045 11 31));
     Calendar.props_date := None;
     Calendar.props_boundingMonth := false;
     Calendar.props_startView := YEAR;
     Calendar.props_filter := Some (λ _, None);
     Calendar.props_onSelect := Some log_selection |}.

(** The same calendar with a filter that lets only first days of a month
    through. *)
Definition props_first_days : Calendar.CalendarProps date host_log :=
  {| Calendar.props_min := Some (mk (YMD 2020 0 1));
     Calendar.props_max := Some (mk (YMD 2045 11 31));
     Calendar.props_date := None;
     Calendar.props_boundingMonth := false;
     Calendar.props_startView := DATE;
     Calendar.props_filter := Some (λ d, Some (day (`d) =? 1));
     Calendar.props_onSelect := Some log_selection |}.

End GregorianDate.

(** ** The date service methods used for display *)

(** The further methods of the date service that the component calls:
    formatting and the comparisons that tolerate a missing date. *)
Class DateServiceDisplay (D : Type) : Type := {
  format : D → string → string;
  compareDatesSafe : D → D → Z;
  isSameDaySafe : D → D → bool;
  isSameMonthSafe : D → D → bool;
  isSameYearSafe : D → D → bool;
}.


(** ** [calendar.component.tsx]: selection marks, cell updates, header *)

Module CalendarView.
Import Calendar.

Definition FORMAT_DAY : string := "D".
Definition FORMAT_MONTH : string := "MMM".
Definition FORMAT_YEAR : string := "YYYY".
Definition FORMAT_HEADER_DATE : string := "MMM YYYY".
Definition FORMAT_HEADER_MONTH : string := "YYYY".
Definition FORMAT_HEADER_YEAR : string := "YYYY".

(** The properties of a picker cell that [shouldUpdateDayElement] reads.
    Themes are objects compared by reference: [Theme] stands for their
    identities. *)
Record CalendarPickerCellProps (D Theme : Type) : Type := {
  cell_date : D;
  cell_selected : bool;
  cell_disabled : bool;
  cell_theme : Theme;
}.

Arguments cell_date {D Theme} _.
Arguments cell_selected {D Theme} _.
Arguments cell_disabled {D Theme} _.
Arguments cell_theme {D Theme} _.

Section view.
Context {D H Theme : Type} `{DateService D} `{DateServiceDisplay D}.
Context `{EqDecision Theme}.
Variable props : CalendarProps D H.

Local Open Scope Z_scope.

Definition shouldUpdateDayElement
    (cellProps nextProps : CalendarPickerCellProps D Theme) : bool :=
  let dateChanged :=
    negb (compareDatesSafe (cell_date cellProps) (cell_date nextProps) =? 0) in
  if dateChanged then true
  else
    let selectionChanged :=
      negb (Bool.eqb (cell_selected cellProps) (cell_selected nextProps)) in
    let disablingChanged :=
      negb (Bool.eqb (cell_disabled cellProps) (cell_disabled nextProps)) in
    if selectionChanged || disablingChanged then true
    else negb (bool_decide (cell_theme cellProps = cell_theme nextProps)).

Definition isDaySelected (d : D) : bool := isSameDaySafe d (date props).
Definition isMonthSelected (d : D) : bool := isSameMonthSafe d (date props).
Definition isYearSelected (d : D) : bool := isSameYearSafe d (date props).

Definition isDayToday (d : D) : bool := isSameDaySafe d today.
Definition isMonthToday (d : D) : bool := isSameMonthSafe d today.
Definition isYearToday (d : D) : bool := isSameYearSafe d today.

Definition createHeaderTitle (date : D) (viewMode : CalendarViewMode)
  : string :=
  match viewMode with
  | DATE => format date FORMAT_HEADER_DATE
  | MONTH => format date FORMAT_HEADER_MONTH
  | YEAR =>
      let endYear := addYear (max props) (Z.of_nat YEARS_IN_VIEW) in
      let isExceedsBound := 0 <? compareDates endYear (max props) in
      let maxDate := if isExceedsBound then endYear else max props in
      let minDateFormat := format (min props) FORMAT_HEADER_YEAR in
      let maxDateFormat := format maxDate FORMAT_HEADER_YEAR in
      minDateFormat +:+ " - " +:+ maxDateFormat
  end.

Definition createTodayTitle (date : D) : string := "Today".


End view.

End CalendarView.

(** ** Display methods of the Gregorian date service *)

Module GregorianDisplay.
Import GregorianDate.

Local Open Scope Z_scope.

Definition monthShortNames : list string :=
  ["Jan"; "Feb"; "Mar"; "Apr"; "May"; "Jun";
   "Jul"; "Aug"; "Sep"; "Oct"; "Nov"; "Dec"].

Definition monthShortName (m : Z) : string :=
  default "" (monthShortNames !! Z.to_nat m).

(** Years are written with at least four digits. *)
Definition year_digits (y : Z) : string :=
  if (0 <=? y) && (y <? 10) then "000" +:+ pretty y
  else if (0 <=? y) && (y <? 100) then "00" +:+ pretty y
  else if (0 <=? y) && (y <? 1000) then "0" +:+ pretty y
  else pretty y.

(** The formats the component asks for; any other format gives the empty
    string. *)
Definition ymd_format (t : ymd) (fmt : string) : string :=
  if decide (fmt = "D") then pretty (day t)
  else if decide (fmt = "MMM") then monthShortName (month t)
  else if decide (fmt = "YYYY") then year_digits (year t)
  else if decide (fmt = "MMM YYYY")
       then monthShortName (month t) +:+ " " +:+ year_digits (year t)
  else "".

#[export] Instance display : DateServiceDisplay date :=
  {| format t fmt := ymd_format (`t) fmt;
     compareDatesSafe a b := ymd_compare (`a) (`b);
     isSameDaySafe a b := ymd_compare (`a) (`b) =? 0;
     isSameMonthSafe a b :=
       (year (`a) =? year (`b)) && (month (`a) =? month (`b));
     isSameYearSafe a b := year (`a) =? year (`b) |}.

(** The clock stopped on 31 January 2027. *)
Definition jan_31_2027 : date := mk (YMD 2027 0 31).

End GregorianDisplay.

(** ** Date services whose dates carry a time of day *)

(** A date that is a day and nothing more: building it again from its year,
    month and day of month gives it back. *)
Definition isCalendarDate {D : Type} `{DateService D} (d : D) : Prop :=
  createDate (getYear d) (getMonth d) (getDate d) = d.

(** How comparison relates to years, also when dates carry a time of day:
    the start of a year is the first moment of the year, while the end of a
    year need not be the last one (the native service builds it as
    31 December, 00:00). *)
Class DateServiceOrderLaws (D : Type) `{DateService D} : Prop := {
  between_compare d a b :
    isBetweenIncludingSafe d a b = true
    ↔ (0 ≤ compareDates d a ∧ compareDates d b ≤ 0)%Z;
  from_year_start d a :
    (0 ≤ compareDates d (getYearStart a))%Z ↔ (getYear a ≤ getYear d)%Z;
  until_year_end d b :
    (compareDates d (getYearEnd b) ≤ 0)%Z → (getYear d ≤ getYear b)%Z;
}.

(** What the service builds is a day without a time of day, in the year
    asked for, and such a day is not past the end of its year. *)
Class DateServiceCalendarLaws (D : Type) `{DateService D} : Prop := {
  calendar_until_year_end d b :
    isCalendarDate d → (getYear d ≤ getYear b)%Z →
    (compareDates d (getYearEnd b) ≤ 0)%Z;
  year_of_year_start d : getYear (getYearStart d) = getYear d;
  year_of_year_end d : getYear (getYearEnd d) = getYear d;
  month_in_range d : (0 ≤ getMonth d < 12)%Z;
  day_in_range d : (1 ≤ getDate d ≤ 31)%Z;
  year_of_month_start d : getYear (getMonthStart d) = getYear d;
  year_of_created y m d :
    (0 ≤ m < 12)%Z → (1 ≤ d ≤ 31)%Z → getYear (createDate y m d) = y;
  year_of_added_months d i :
    (0 ≤ i < 12)%Z → getYear (addMonth (getYearStart d) i) = getYear d;
  year_of_added_years d k :
    getYear (addYear (getYearStart d) k) = (getYear d + k)%Z;
  calendar_month_start d : isCalendarDate (getMonthStart d);
  calendar_created y m d :
    (0 ≤ m < 12)%Z → (1 ≤ d ≤ 31)%Z → isCalendarDate (createDate y m d);
  calendar_added_months d i :
    (0 ≤ i < 12)%Z → isCalendarDate (addMonth (getYearStart d) i);
  calendar_added_years d k : isCalendarDate (addYear (getYearStart d) k);
}.

(** ** The component under a running clock

    [today()] is read anew at every use: by the initial state, by the today
    press and, when [min] or [max] is omitted, by every look at the
    bounds. *)

Module Clocked.
Import Calendar.

Section clocked.
Context {D H : Type} `{service : DateService D}.
Variable props : CalendarProps D H.

Local Open Scope Z_scope.

(** The date service at a moment when its clock reads [now]. *)
Definition at_clock (now : D) : DateService D :=
  {| today := now;
     getYear := @getYear D service;
     getMonth := @getMonth D service;
     getDate := @getDate D service;
     createDate := @createDate D service;
     getYearStart := @getYearStart D service;
     getYearEnd := @getYearEnd D service;
     getMonthStart := @getMonthStart D service;
     addMonth := @addMonth D service;
     addYear := @addYear D service;
     compareDates := @compareDates D service;
     isBetweenIncludingSafe := @isBetweenIncludingSafe D service |}.

Definition initialState_at (now : D) : State D :=
  @initialState D H (at_clock now) props.

Definition min_at (now : D) : D := @min D H (at_clock now) props.
Definition max_at (now : D) : D := @max D H (at_clock now) props.

Definition isDateFitsBounds_at (now : D) (date : D) : bool :=
  @isDateFitsBounds D H (at_clock now) props date.

Definition perform_at (now : D) (a : Action D) (s : State D)
  : option (State D) :=
  @perform D H (at_clock now) props a s.

(** The actions considered, at a moment when the clock reads [now]: a year
    cell is pressed only if it fits the bounds, the day pager has one page
    per month of the year, the year pager one page per window of
    [YEARS_IN_VIEW] years that starts no later than the year of [max], and
    the today button is pressed only while today fits the bounds. *)
Definition offered_at (now : D) (s : State D) (a : Action D) : Prop :=
  match a with
  | YearSelect date => isDateFitsBounds_at now date = true
  | DatePickerPagerSelect index => 0 ≤ index < Z.of_nat MONTHS_IN_YEAR
  | YearPickerPagerSelect index =>
      0 ≤ index
      ∧ getYear (min_at now) + index * Z.of_nat YEARS_IN_VIEW
        ≤ getYear (max_at now)
  | TodayPress => isDateFitsBounds_at now now = true
  | MonthSelect _ | PickerNavigationPress => True
  end.

(** States reached when every reading of the clock satisfies [clock]: the
    component is created at one reading, each action happens at one. *)
Inductive reachable_at (clock : D → Prop) : State D → Prop :=
  | reachable_at_init now :
      clock now → reachable_at clock (initialState_at now)
  | reachable_at_step now s a s' :
      clock now → reachable_at clock s → offered_at now s a →
      perform_at now a s = Some s' → reachable_at clock s'.

End clocked.

End Clocked.

(** ** A date service with a time of day

    Gregorian days with the minute of the day, as the native date type
    carries it. What the service builds is at 00:00; in particular the end
    of a year is 31 December, 00:00. *)

Module TimedDate.
Import GregorianDate.

Local Open Scope Z_scope.

Record timed : Set := Timed { calendar : date; minute : nat }.

Definition at_midnight (c : date) : timed := Timed c 0%nat.

(** Year, month and day of month of a date. *)
Definition triple (t : timed) : ymd := proj1_sig (calendar t).

Definition timed_compare (a b : timed) : Z :=
  let days := ymd_compare (triple a) (triple b) in
  if days =? 0 then Z.sgn (Z.of_nat (minute a) - Z.of_nat (minute b))
  else days.

(** The service, for a given reading [now] of the clock. *)
Definition service (now : timed) : DateService timed :=
  {| today := now;
     getYear t := year (triple t);
     getMonth t := month (triple t);
     getDate t := day (triple t);
     createDate y m d := at_midnight (mk (ymd_create y m d));
     getYearStart t := at_midnight (mk (YMD (year (triple t)) 0 1));
     getYearEnd t := at_midnight (mk (YMD (year (triple t)) 11 31));
     getMonthStart t :=
       at_midnight (mk (YMD (year (triple t)) (month (triple t)) 1));
     addMonth t n := at_midnight (mk (ymd_addMonth (triple t) n));
     addYear t n := at_midnight (mk (ymd_addYear (triple t) n));
     compareDates a b := timed_compare a b;
     isBetweenIncludingSafe d a b :=
       (0 <=? timed_compare d a) && (timed_compare d b <=? 0) |}.

(** 2 November 2026 at 14:30 and at 14:31; 31 December 2026 at 12:00. *)
Definition nov_2_2026_1430 : timed := Timed (mk (YMD 2026 10 2)) 870%nat.
Definition nov_2_2026_1431 : timed := Timed (mk (YMD 2026 10 2)) 871%nat.
Definition dec_31_2026_noon : timed := Timed (mk (YMD 2026 11 31)) 720%nat.

Definition timed_host : Set := list timed.

(** A calendar for the years 2020 to 2045, opened in Year view. *)
Definition props_whole_years : Calendar.CalendarProps timed timed_host :=
  {| Calendar.props_min := Some (at_midnight (mk (YMD 2020 0 1)));
     Calendar.props_max := Some (at_midnight (mk (YMD 2045 11 31)));
     Calendar.props_date := None;
     Calendar.props_boundingMonth := false;
     Calendar.props_startView := YEAR;
     Calendar.props_filter := None;
     Calendar.props_onSelect := None |}.

(** The service with the clock stopped on 2 November 2026 at 14:30. *)
#[export] Instance service_nov_2_2026_1430 : DateService timed :=
  service nov_2_2026_1430.

(** The clock readings within the years 2020 to 2045. *)
Definition clock_2020_2045 (now : timed) : Prop :=
  2020 ≤ year (triple now) ≤ 2045.

End TimedDate.

(** * Properties *)

(** ** Grid batching *)

Section batch_facts.
Context {T : Type}.
Implicit Types (target row : list T) (w fuel : nat).

Lemma batch_rows_cons fuel x target w :
  batch_rows (S fuel) (x :: target) w
  = take w (x :: target) :: batch_rows fuel (drop w (x :: target)) w.
Proof. reflexivity. Qed.

Lemma batch_rows_nil fuel w : batch_rows fuel (@nil T) w = [].
Proof. by destruct fuel. Qed.

Lemma ceil_div_0 w : 0 < w → ceil_div 0 w = 0.
Proof. intros Hw. unfold ceil_div. apply Nat.div_small. lia. Qed.

Lemma ceil_div_step n w : 0 < w → 0 < n → ceil_div n w = S (ceil_div (n - w) w).
Proof.
  intros Hw Hn. unfold ceil_div.
  destruct (le_lt_dec n w) as [Hle | Hlt].
  - replace (n - w + w - 1) with (w - 1) by lia.
    rewrite (Nat.div_small (w - 1)) by lia.
    replace (n + w - 1) with (n - 1 + 1 * w) by lia.
    rewrite Nat.div_add by lia.
    rewrite Nat.div_small by lia. reflexivity.
  - replace (n + w - 1) with (n - w + w - 1 + 1 * w) by lia.
    rewrite Nat.div_add by lia. lia.
Qed.

(** More than [k] rows are needed only for more than [k * w] cells. *)
Lemma ceil_div_gt n w k : 0 < w → k < ceil_div n w → k * w < n.
Proof.
  intros Hw Hk. unfold ceil_div in Hk.
  destruct (le_lt_dec n (k * w)) as [Hle | Hlt]; [| done].
  assert ((n + w - 1) / w < S k); [| lia].
  apply Nat.Div0.div_lt_upper_bound; lia.
Qed.

Lemma batch_rows_concat fuel target w :
  0 < w → length target ≤ fuel → concat (batch_rows fuel target w) = target.
Proof.
  intros Hw. revert target.
  induction fuel as [| fuel IH]; intros target Hlen.
  - destruct target; [done | simpl in Hlen; lia].
  - destruct target as [| x target]; [done |].
    rewrite batch_rows_cons, concat_cons, IH.
    + apply take_drop.
    + rewrite length_drop. simpl in *. lia.
Qed.

Lemma batch_rows_length fuel target w :
  0 < w → length target ≤ fuel →
  length (batch_rows fuel target w) = ceil_div (length target) w.
Proof.
  intros Hw. revert target.
  induction fuel as [| fuel IH]; intros target Hlen.
  - destruct target; [| simpl in Hlen; lia].
    by rewrite ceil_div_0.
  - destruct target as [| x target]; [by rewrite ceil_div_0 |].
    rewrite batch_rows_cons, length_cons, IH.
    + rewrite length_drop, <- ceil_div_step; [done | done | simpl; lia].
    + rewrite length_drop. simpl in *. lia.
Qed.

Lemma batch_rows_lookup_length fuel target w i row :
  0 < w → length target ≤ fuel →
  batch_rows fuel target w !! i = Some row →
  length row = Nat.min w (length target - i * w).
Proof.
  intros Hw. revert target i.
  induction fuel as [| fuel IH]; intros target i Hlen Hrow.
  - destruct target; [done | simpl in Hlen; lia].
  - destruct target as [| x target]; [done |].
    rewrite batch_rows_cons in Hrow.
    destruct i as [| i]; simpl in Hrow.
    + injection Hrow as <-. rewrite length_take. lia.
    + apply IH in Hrow.
      * rewrite Hrow, length_drop. lia.
      * rewrite length_drop. simpl in *. lia.
Qed.

End batch_facts.

(** C4. For every sequence [target] of length [n] and every row width
    [w > 0], [batch target w] has [ceil (n / w)] rows; every row is
    non-empty and at most [w] long, and every row but the last is exactly
    [w] long; the rows concatenated in order give [target] back. *)
Theorem batch_grid {T : Type} (target : list T) (w : nat) :
  0 < w →
  length (batch target w) = ceil_div (length target) w
  ∧ (∀ i row, batch target w !! i = Some row →
       0 < length row ≤ w
       ∧ (S i < length (batch target w) → length row = w))
  ∧ concat (batch target w) = target.
Proof.
  intros Hw. unfold batch.
  split; [by apply batch_rows_length |].
  split; [| by apply batch_rows_concat].
  intros i row Hrow.
  pose proof (lookup_lt_Some _ _ _ Hrow) as Hi.
  apply batch_rows_lookup_length in Hrow; [| done | done].
  rewrite batch_rows_length in * by done.
  apply ceil_div_gt in Hi; [| done].
  split; [lia |].
  intros Hnext. apply ceil_div_gt in Hnext; [| done].
  simpl in Hnext. lia.
Qed.

(** Ten cells in rows of four: three rows, the last one of two cells. *)
Lemma batch_grid_witness :
  batch [1; 2; 3; 4; 5; 6; 7; 8; 9; 10] 4
    = [[1; 2; 3; 4]; [5; 6; 7; 8]; [9; 10]]
  ∧ length (batch [1; 2; 3; 4; 5; 6; 7; 8; 9; 10] 4) = ceil_div 10 4
  ∧ concat (batch [1; 2; 3; 4; 5; 6; 7; 8; 9; 10] 4)
    = [1; 2; 3; 4; 5; 6; 7; 8; 9; 10].
Proof.
  split; [reflexivity |].
  pose proof (batch_grid [1; 2; 3; 4; 5; 6; 7; 8; 9; 10] 4) as Hgrid.
  destruct Hgrid as (Hrows & _ & Hconcat); [lia |].
  split; [exact Hrows | exact Hconcat].
Defined.

(** ** The Gregorian date service is a calendar date service *)

Module GregorianFacts.
Import GregorianDate.

Local Open Scope Z_scope.

Lemma valid_spec t :
  Is_true (valid t)
  ↔ 0 ≤ month t < 12 ∧ 1 ≤ day t ≤ daysInMonth (year t) (month t).
Proof.
  unfold valid.
  rewrite !andb_True, !Is_true_true, !Z.leb_le, Z.ltb_lt. lia.
Qed.

Lemma daysInMonth_bounds y m : 28 ≤ daysInMonth y m ≤ 31.
Proof.
  unfold daysInMonth.
  destruct (m =? 1); [destruct (isLeapYear y); lia |].
  destruct ((m =? 3) || (m =? 5) || (m =? 8) || (m =? 10)); lia.
Qed.

Lemma daysInMonth_december y : daysInMonth y 11 = 31.
Proof. reflexivity. Qed.

Lemma proj1_mk t : Is_true (valid t) → proj1_sig (mk t) = t.
Proof. intros Hvalid. unfold mk. by destruct (decide _). Qed.

Lemma date_valid (t : date) :
  0 ≤ month (`t) < 12 ∧ 1 ≤ day (`t) ≤ 31.
Proof.
  destruct t as [t Hvalid]; simpl.
  apply valid_spec in Hvalid.
  pose proof (daysInMonth_bounds (year t) (month t)). lia.
Qed.

Lemma proj1_mk_first y m : 0 ≤ m < 12 → proj1_sig (mk (YMD y m 1)) = YMD y m 1.
Proof.
  intros Hm. apply proj1_mk, valid_spec; simpl.
  pose proof (daysInMonth_bounds y m). lia.
Qed.

Lemma proj1_mk_last y : proj1_sig (mk (YMD y 11 31)) = YMD y 11 31.
Proof. by apply proj1_mk, valid_spec. Qed.

Lemma ymd_create_valid y m d :
  0 ≤ m < 12 → 1 ≤ d ≤ 31 →
  Is_true (valid (ymd_create y m d)) ∧ year (ymd_create y m d) = y.
Proof.
  intros Hm Hd. unfold ymd_create.
  pose proof (daysInMonth_bounds y m).
  pose proof (daysInMonth_bounds y (m + 1)).
  destruct (Z.leb_spec d (daysInMonth y m)) as [Hfit | Hover].
  - split; [| done]. apply valid_spec; simpl. lia.
  - destruct (Z.eqb_spec m 11) as [-> | Hne].
    + rewrite daysInMonth_december in Hover. lia.
    + split; [| done]. apply valid_spec; simpl. lia.
Qed.

#[global] Instance service_laws (now : date) :
  @DateServiceLaws date (service now).
Proof.
  split; simpl.
  - intros d a b. rewrite andb_true_iff, !Z.leb_le. done.
  - intros d a.
    pose proof (date_valid d). unfold ymd_compare; simpl.
    destruct (Z.compare_spec (year (`d)) (year (`a)));
      destruct (Z.compare_spec (month (`d)) 0);
      destruct (Z.compare_spec (day (`d)) 1); lia.
  - intros d b.
    pose proof (date_valid d). unfold ymd_compare; simpl.
    destruct (Z.compare_spec (year (`d)) (year (`b)));
      destruct (Z.compare_spec (month (`d)) 11);
      destruct (Z.compare_spec (day (`d)) 31); lia.
  - done.
  - done.
  - intros d. apply date_valid.
  - intros d. apply date_valid.
  - intros d. pose proof (date_valid d). by rewrite proj1_mk_first by lia.
  - intros y m d Hm Hd.
    destruct (ymd_create_valid y m d Hm Hd) as [Hvalid Hyear].
    by rewrite proj1_mk.
  - intros d i Hi.
    unfold ymd_addMonth; cbn [year month day proj1_sig].
    rewrite Z.add_0_l, Z.div_small, Z.mod_small, Z.add_0_r by lia.
    pose proof (daysInMonth_bounds (year (`d)) i).
    rewrite Z.min_l by lia. by rewrite proj1_mk_first.
  - done.
Qed.

End GregorianFacts.

(** ** The component *)

Section calendar_facts.
Import Calendar.
Context {D Host : Type} `{!DateService D}.
Implicit Types (props : CalendarProps D Host) (s : State D) (d : D).

Local Open Scope Z_scope.

(** C2. The drill-down transition maps Year to Month, Month to Day and Day
    to Day; month and year selection apply it to the view mode; so from any
    state in Year view a year selection followed by a month selection
    reaches Day view, and a selection made in Day view stays in Day view. *)
Theorem drill_down s d d1 d2 (visible : D) :
  pickNext YEAR = MONTH ∧ pickNext MONTH = DATE ∧ pickNext DATE = DATE
  ∧ viewMode (onMonthSelect d s) = pickNext (viewMode s)
  ∧ viewMode (onYearSelect d s) = pickNext (viewMode s)
  ∧ viewMode (onMonthSelect d2 (onYearSelect d1 (Build_State YEAR visible)))
    = DATE
  ∧ viewMode (onMonthSelect d (Build_State DATE visible)) = DATE
  ∧ viewMode (onYearSelect d (Build_State DATE visible)) = DATE.
Proof. repeat split. Qed.

(** C3. The cycle transition maps Day to Month, Month to Year and Year back
    to Day; a press on the header title applies it to the view mode and
    leaves the visible date as it is, so three presses give the state back. *)
Theorem cycle_navigation s :
  navigationNext DATE = MONTH
  ∧ navigationNext MONTH = YEAR
  ∧ navigationNext YEAR = DATE
  ∧ viewMode (onPickerNavigationPress s) = navigationNext (viewMode s)
  ∧ visibleDate (onPickerNavigationPress s) = visibleDate s
  ∧ onPickerNavigationPress
      (onPickerNavigationPress (onPickerNavigationPress s)) = s.
Proof.
  repeat split.
  destruct s as [mode visible]. by destruct mode.
Qed.

(** C5. For every date, the month picker grid is the 12 months that follow
    the year start of the date, in order, in 3 rows of 4, and the year
    picker grid is the 12 years that follow the year start of the date, in
    order, in 3 rows of 4. *)
Theorem picker_grids d :
  let yearStart := getYearStart d in
  createMonthPickerData d
  = [ [addMonth yearStart 0; addMonth yearStart 1;
       addMonth yearStart 2; addMonth yearStart 3];
      [addMonth yearStart 4; addMonth yearStart 5;
       addMonth yearStart 6; addMonth yearStart 7];
      [addMonth yearStart 8; addMonth yearStart 9;
       addMonth yearStart 10; addMonth yearStart 11] ]
  ∧ createYearPickerData d
  = [ [addYear yearStart 0; addYear yearStart 1;
       addYear yearStart 2; addYear yearStart 3];
      [addYear yearStart 4; addYear yearStart 5;
       addYear yearStart 6; addYear yearStart 7];
      [addYear yearStart 8; addYear yearStart 9;
       addYear yearStart 10; addYear yearStart 11] ].
Proof. split; reflexivity. Qed.

Lemma in_viewport_iff (index visibleIndex : Z) :
  (index =? visibleIndex) || (Z.abs (index - visibleIndex) =? 1) = true
  ↔ Z.abs (index - visibleIndex) ≤ 1.
Proof. rewrite orb_true_iff, !Z.eqb_eq. lia. Qed.

(** C6. The active page of the day pager is the (0-based) month of the
    visible date; the active page of the year pager is the floor of
    (year of the visible date - year of min) / 12; in both pagers a page is
    in the viewport exactly when its index differs from the active one by
    at most 1. *)
Theorem pager_indices props s (index : Z) :
  visibleDayPickerIndex s = getMonth (visibleDate s)
  ∧ (isDayPickerInViewPort s index = true
     ↔ Z.abs (index - visibleDayPickerIndex s) ≤ 1)
  ∧ 12 * visibleYearPickerIndex props s
      ≤ getYear (visibleDate s) - getYear (min props)
      < 12 * visibleYearPickerIndex props s + 12
  ∧ (isYearPickerInViewPort props s index = true
     ↔ Z.abs (index - visibleYearPickerIndex props s) ≤ 1).
Proof.
  split; [done |].
  split; [apply in_viewport_iff |].
  split; [| apply in_viewport_iff].
  unfold visibleYearPickerIndex.
  change (Z.of_nat YEARS_IN_VIEW) with 12.
  pose proof (Z.div_mod (getYear (visibleDate s) - getYear (min props)) 12).
  pose proof (Z.mod_pos_bound
                (getYear (visibleDate s) - getYear (min props)) 12).
  lia.
Qed.

(** C8. Selecting a day hands exactly the selected date to the [onSelect]
    callback when there is one, does nothing on the host when there is
    none, and in both cases leaves the view mode and the visible date of
    the component as they are. *)
Theorem day_select_emits props d s (host : Host) :
  (∀ onSelect, props_onSelect props = Some onSelect →
     onDateSelect props d s host = (s, onSelect d host))
  ∧ (props_onSelect props = None → onDateSelect props d s host = (s, host))
  ∧ (onDateSelect props d s host).1 = s.
Proof.
  unfold onDateSelect.
  destruct (props_onSelect props) as [onSelect |]; repeat split; try done.
  by intros ? [= <-].
Qed.

Lemma disabled_in_bounds props d :
  isDateFitsBounds props d = true →
  isDayDisabled props d = isDateFitsFilter props d
  ∧ isMonthDisabled props d = isDateFitsFilter props d
  ∧ isYearDisabled props d = isDateFitsFilter props d.
Proof.
  intros Hfits. unfold isDayDisabled, isMonthDisabled, isYearDisabled.
  by rewrite Hfits.
Qed.

Lemma isDateFitsFilter_true props d :
  isDateFitsFilter props d = Some true
  ↔ ∃ filter, props_filter props = Some filter ∧ filter d = Some false.
Proof.
  unfold isDateFitsFilter.
  destruct (props_filter props) as [filter |].
  - split.
    + intros Hneg. exists filter. split; [done |].
      by destruct (filter d) as [[] |].
    + intros (filter' & [= <-] & ->). done.
  - split; [done |]. by intros (filter & ? & _).
Qed.

(** C10. A date within [[min, max]] is disabled (as a day, as a month and
    as a year) if and only if a filter is provided and returns false for
    it; without a filter every date within the bounds is enabled. *)
Theorem filter_polarity props d :
  isDateFitsBounds props d = true →
  (isDayDisabled props d = Some true
   ↔ ∃ filter, props_filter props = Some filter ∧ filter d = Some false)
  ∧ (isMonthDisabled props d = Some true
     ↔ ∃ filter, props_filter props = Some filter ∧ filter d = Some false)
  ∧ (isYearDisabled props d = Some true
     ↔ ∃ filter, props_filter props = Some filter ∧ filter d = Some false)
  ∧ (props_filter props = None →
     isDayDisabled props d = Some false
     ∧ isMonthDisabled props d = Some false
     ∧ isYearDisabled props d = Some false).
Proof.
  intros Hfits.
  destruct (disabled_in_bounds props d Hfits) as (-> & -> & ->).
  split; [apply isDateFitsFilter_true |].
  split; [apply isDateFitsFilter_true |].
  split; [apply isDateFitsFilter_true |].
  unfold isDateFitsFilter. by intros ->.
Qed.

(** C7. For a date outside [[min, max]] the three disabling predicates
    answer true without consulting the filter, so no error can come from
    it; pressing the cell of such a date, in any of the three pickers,
    changes neither the state of the component nor the host. *)
Theorem out_of_bounds_disabled props d s (host : Host) :
  isDateFitsBounds props d = false →
  isDayDisabled props d = Some true
  ∧ isMonthDisabled props d = Some true
  ∧ isYearDisabled props d = Some true
  ∧ pressDayCell props d (s, host) = Some (s, host)
  ∧ pressMonthCell props d s = Some s
  ∧ pressYearCell props d s = Some s.
Proof.
  intros Hout.
  unfold pressDayCell, pressMonthCell, pressYearCell, pressCell,
    isDayDisabled, isMonthDisabled, isYearDisabled.
  rewrite Hout. done.
Qed.

End calendar_facts.

(** ** Bounds, for date services that satisfy the calendar laws *)

Section bounds_facts.
Import Calendar.
Context {D Host : Type} `{!DateService D} `{!DateServiceLaws D}.
Implicit Types (props : CalendarProps D Host) (s : State D) (d : D).

Local Open Scope Z_scope.

(** Between the start of a year and the end of a later one lie the dates of
    the years in between. *)
Lemma fits_whole_years props (a b : D) d :
  min props = getYearStart a → max props = getYearEnd b →
  isDateFitsBounds props d = true ↔ getYear a ≤ getYear d ≤ getYear b.
Proof.
  intros Hmin Hmax. unfold isDateFitsBounds.
  rewrite Hmin, Hmax, isBetweenIncludingSafe_spec.
  by rewrite compareDates_getYearStart, compareDates_getYearEnd.
Qed.

End bounds_facts.

(** ** Bounds, when dates may carry a time of day *)

Section order_facts.
Import Calendar.
Context {D Host : Type} `{!DateService D} `{!DateServiceOrderLaws D}.
Implicit Types (props : CalendarProps D Host) (s : State D) (d : D).

Local Open Scope Z_scope.

(** What lies between the start of a year and the end of a later one is of
    the years in between. *)
Lemma between_years (a b : D) d :
  isBetweenIncludingSafe d (getYearStart a) (getYearEnd b) = true →
  getYear a ≤ getYear d ≤ getYear b.
Proof.
  rewrite between_compare, from_year_start.
  intros [Hfrom Huntil]. apply until_year_end in Huntil. lia.
Qed.

(** C9. An omitted [min] is the year start of today, an omitted [max] the
    year end of today, an omitted [date] today; so with both bounds omitted
    the bounds are the year start and the year end of today, and, for a
    date service whose comparison agrees with years, only dates of the year
    of today fit the bounds. *)
Theorem default_bounds props :
  (props_min props = None → min props = getYearStart today)
  ∧ (props_max props = None → max props = getYearEnd today)
  ∧ (props_date props = None → date props = today)
  ∧ (props_min props = None → props_max props = None →
     ∀ d, isDateFitsBounds props d
          = isBetweenIncludingSafe d (getYearStart today) (getYearEnd today)
          ∧ (isDateFitsBounds props d = true → getYear d = getYear today)).
Proof.
  unfold isDateFitsBounds, min, max, date.
  split; [by intros -> |].
  split; [by intros -> |].
  split; [by intros -> |].
  intros -> -> d; simpl.
  split; [done |].
  intros Hfits. apply between_years in Hfits. lia.
Qed.

End order_facts.

Section clock_facts.
Import Calendar Clocked.
Context {D Host : Type} `{!DateService D}.
Context `{!DateServiceOrderLaws D} `{!DateServiceCalendarLaws D}.
Implicit Types (props : CalendarProps D Host) (s : State D) (d now : D).

Local Open Scope Z_scope.

(** A day without a time of day, of a year between two years, lies between
    the start of the first and the end of the second. *)
Lemma calendar_date_between (a b : D) d :
  isCalendarDate d → getYear a ≤ getYear d ≤ getYear b →
  isBetweenIncludingSafe d (getYearStart a) (getYearEnd b) = true.
Proof.
  intros Hcalendar Hyear.
  rewrite between_compare, from_year_start.
  split; [lia |]. apply calendar_until_year_end; [done | lia].
Qed.

Lemma isDateFitsBounds_at_eq props now d :
  isDateFitsBounds_at props now d
  = isBetweenIncludingSafe d (min_at props now) (max_at props now).
Proof. reflexivity. Qed.

(** One action keeps the visible date between the start of the first year
    and the end of the last. *)
Lemma offered_step_between props (a b : D) now s action s' :
  min_at props now = getYearStart a → max_at props now = getYearEnd b →
  isBetweenIncludingSafe (visibleDate s) (getYearStart a) (getYearEnd b)
    = true →
  offered_at props now s action → perform_at props now action s = Some s' →
  isBetweenIncludingSafe (visibleDate s') (getYearStart a) (getYearEnd b)
    = true.
Proof.
  intros Hmin Hmax Hs Hoffered Hperform.
  pose proof (between_years a b _ Hs) as Hyear.
  pose proof (month_in_range (visibleDate s)) as Hmonth.
  pose proof (day_in_range (visibleDate s)) as Hday.
  unfold perform_at in Hperform.
  destruct action as [cell | cell | index | index | |];
    simpl in Hoffered, Hperform.
  - injection Hperform as <-; simpl.
    pose proof (month_in_range cell).
    apply calendar_date_between; [by apply calendar_created |].
    by rewrite year_of_created.
  - injection Hperform as <-; simpl.
    rewrite isDateFitsBounds_at_eq, Hmin, Hmax in Hoffered.
    apply between_years in Hoffered.
    apply calendar_date_between; [by apply calendar_created |].
    by rewrite year_of_created.
  - injection Hperform as <-; simpl.
    apply calendar_date_between; [by apply calendar_added_months |].
    by rewrite year_of_added_months.
  - unfold onYearPickerPagerSelect in Hperform; simpl in Hperform.
    destruct (props_min props) as [minimum |] eqn:Hprops; [| done].
    injection Hperform as <-; simpl.
    assert (min_at props now = minimum) as Hminimum
      by (unfold min_at, min; by rewrite Hprops).
    rewrite Hmax, year_of_year_end, Hminimum in Hoffered.
    assert (getYear minimum = getYear a) as Hminimum_year.
    { rewrite <- Hminimum, Hmin. apply year_of_year_start. }
    apply calendar_date_between; [apply calendar_added_years |].
    rewrite year_of_added_years. lia.
  - injection Hperform as <-; simpl.
    by rewrite isDateFitsBounds_at_eq, Hmin, Hmax in Hoffered.
  - by injection Hperform as <-.
Qed.

(** C1, as the code has it. The component never clamps the visible date.
    Let the date service satisfy the order and calendar laws, and let, at
    every reading of the clock, [min] be the start of a year, [max] the end
    of a year (as configured, or by default while the clock stays within
    one year) and the year of today lie between them. Then every state
    reached from an initial state through month selection, selection of a
    year that fits the bounds, a page 0..11 of the day pager, a page of the
    year pager that starts no later than the year of [max], the title press
    and a today press made while today fits the bounds has its visible date
    within [[min, max]], at every reading of the clock. *)
Theorem visible_date_within_bounds_at_every_clock
    props (a b : D) (clock : D → Prop) s :
  (∀ now, clock now →
     min_at props now = getYearStart a
     ∧ max_at props now = getYearEnd b
     ∧ getYear a ≤ getYear now ≤ getYear b) →
  reachable_at props clock s →
  ∀ now, clock now → isDateFitsBounds_at props now (visibleDate s) = true.
Proof.
  intros Hclock Hreachable.
  assert (isBetweenIncludingSafe (visibleDate s)
            (getYearStart a) (getYearEnd b) = true) as Hbetween.
  { induction Hreachable
      as [now Hnow | now s action s' Hnow _ IH Hoffered Hperform].
    - destruct (Hclock now Hnow) as (_ & _ & Hyear).
      change (visibleDate (initialState_at props now))
        with (getMonthStart now).
      apply calendar_date_between; [apply calendar_month_start |].
      by rewrite year_of_month_start.
    - destruct (Hclock now Hnow) as (Hmin & Hmax & _).
      by apply (offered_step_between props a b now s action s'). }
  intros now Hnow.
  destruct (Hclock now Hnow) as (Hmin & Hmax & _).
  by rewrite isDateFitsBounds_at_eq, Hmin, Hmax.
Qed.

End clock_facts.

(** ** The properties on Gregorian dates *)

Module GregorianExamples.
Import Calendar GregorianDate GregorianFacts.

Local Open Scope Z_scope.

(** C1, as stated, fails: a calendar bounded to the year 2030 and opened on
    2 November 2026 starts with 1 November 2026 as its visible date, which
    does not fit the bounds. *)
Lemma visible_date_not_clamped :
  reachable props_2030 any_action (initialState props_2030)
  ∧ proj1_sig (visibleDate (initialState props_2030)) = YMD 2026 10 1
  ∧ isDateFitsBounds props_2030 (visibleDate (initialState props_2030)) = false
  ∧ ¬ (∀ (props : CalendarProps date host_log) (s : State date),
         reachable props any_action s →
         isDateFitsBounds props (visibleDate s) = true).
Proof.
  split; [apply reachable_init |].
  split; [reflexivity |].
  split; [reflexivity |].
  intros Hclamped.
  specialize (Hclamped props_2030 (initialState props_2030)
                (reachable_init props_2030 any_action)).
  discriminate Hclamped.
Qed.

(** 15 January 2050 lies past the bounds of the 2020-2045 calendar, whose
    filter throws on every date. *)
Lemma out_of_bounds_disabled_witness :
  let props := props_2020_2045 in
  let d := mk (YMD 2050 0 15) in
  let s := initialState props in
  isDateFitsBounds props d = false
  ∧ isDayDisabled props d = Some true
  ∧ isMonthDisabled props d = Some true
  ∧ isYearDisabled props d = Some true
  ∧ pressDayCell props d (s, []) = Some (s, [])
  ∧ pressMonthCell props d s = Some s
  ∧ pressYearCell props d s = Some s.
Proof.
  intros props d s.
  split; [reflexivity |].
  apply (out_of_bounds_disabled props d s []). reflexivity.
Defined.

(** The host of the first-days calendar is told of 15 January 2030, and of
    nothing else. *)
Lemma day_select_emits_witness :
  let props := props_first_days in
  let d := mk (YMD 2030 0 15) in
  let s := initialState props in
  props_onSelect props = Some log_selection
  ∧ onDateSelect props d s [] = (s, [d]).
Proof.
  intros props d s.
  split; [reflexivity |].
  apply (proj1 (day_select_emits props d s []) log_selection). reflexivity.
Defined.

(** With the first-days filter, 15 January 2030 is within the bounds and
    disabled. *)
Lemma filter_polarity_witness :
  let props := props_first_days in
  let d := mk (YMD 2030 0 15) in
  isDateFitsBounds props d = true
  ∧ (isDayDisabled props d = Some true
     ↔ ∃ filter, props_filter props = Some filter ∧ filter d = Some false).
Proof.
  intros props d.
  split; [reflexivity |].
  apply (filter_polarity props d). reflexivity.
Defined.

End GregorianExamples.

(** * Further properties of the component *)

Module GregorianDayFacts.
Import GregorianDate GregorianFacts.

Local Open Scope Z_scope.


Lemma ymd_addMonth_yearStart y i :
  0 ≤ i < 12 → ymd_addMonth (YMD y 0 1) i = YMD y i 1.
Proof.
  intros Hi. unfold ymd_addMonth; cbn [year month day].
  rewrite Z.add_0_l, Z.div_small, Z.mod_small, Z.add_0_r by lia.
  pose proof (daysInMonth_bounds y i).
  by rewrite Z.min_l by lia.
Qed.


End GregorianDayFacts.

Section default_picker_facts.
Import Calendar CalendarView.
Context {D Host : Type} `{!DateService D} `{!DateServiceLaws D}.
Implicit Types (props : CalendarProps D Host) (s : State D) (d : D).

Local Open Scope Z_scope.

Lemma month_grid_years d :
  getYear <$> concat (createMonthPickerData d) = replicate 12 (getYear d).
Proof.
  cbv [createMonthPickerData MONTHS_IN_YEAR MONTHS_IN_COLUMN batch range].
  simpl. by rewrite !getYear_addMonth by lia.
Qed.

(** X5. With [min] and [max] omitted, a cell of the year picker built for a
    date of the current year fits the bounds only if it is the first one;
    every other cell is disabled, whatever the filter. *)
Theorem default_year_picker_cells props d (k : Z) :
  props_min props = None → props_max props = None →
  getYear d = getYear today →
  let cell := addYear (getYearStart d) k in
  (isDateFitsBounds props cell = true ↔ k = 0)
  ∧ (k ≠ 0 → isYearDisabled props cell = Some true).
Proof.
  intros Hmin Hmax Hyear cell.
  assert (isDateFitsBounds props cell = true ↔ k = 0) as Hfits.
  { rewrite (fits_whole_years props today today cell).
    - subst cell. rewrite getYear_addYear. lia.
    - unfold min. by rewrite Hmin.
    - unfold max. by rewrite Hmax. }
  split; [done |].
  intros Hk. unfold isYearDisabled.
  destruct (isDateFitsBounds props cell); [| done].
  by destruct Hk; apply Hfits.
Qed.

(** X6. With [min] and [max] omitted, every cell of the month picker built
    for a date of the current year fits the bounds; without a filter none
    of them is disabled. *)
Theorem default_month_picker_cells props d :
  props_min props = None → props_max props = None →
  getYear d = getYear today →
  Forall (λ cell, isDateFitsBounds props cell = true)
         (concat (createMonthPickerData d))
  ∧ (props_filter props = None →
     Forall (λ cell, isMonthDisabled props cell = Some false)
            (concat (createMonthPickerData d))).
Proof.
  intros Hmin Hmax Hyear.
  assert (Forall (λ cell, isDateFitsBounds props cell = true)
                 (concat (createMonthPickerData d))) as Hfits.
  { apply Forall_forall. intros cell Hcell.
    apply (fits_whole_years props today today cell).
    - unfold min. by rewrite Hmin.
    - unfold max. by rewrite Hmax.
    - assert (getYear cell = getYear d) as ->; [| lia].
      pose proof (month_grid_years d) as Hyears.
      apply list_elem_of_lookup in Hcell as [i Hi].
      assert ((getYear <$> concat (createMonthPickerData d)) !! i
              = Some (getYear cell)) as Hlookup
        by (by rewrite list_lookup_fmap, Hi).
      rewrite Hyears in Hlookup.
      by apply lookup_replicate in Hlookup as [-> _]. }
  split; [done |].
  intros Hfilter. eapply Forall_impl; [exact Hfits |].
  intros cell Hcell. unfold isMonthDisabled, isDateFitsFilter.
  by rewrite Hcell, Hfilter.
Qed.

End default_picker_facts.

Section pager_facts.
Import Calendar CalendarView.
Context {D Host : Type} `{!DateService D}.
Context `{!DateServiceLaws D} `{!DateServiceDayLaws D}.
Implicit Types (props : CalendarProps D Host) (s : State D) (d : D).

Local Open Scope Z_scope.






End pager_facts.

Section browsing_facts.
Import Calendar CalendarView.
Context {D Host : Type} `{!DateService D}.
Context `{!DateServiceLaws D} `{!DateServiceDayLaws D}.
Implicit Types (props : CalendarProps D Host) (s : State D) (d : D).

Local Open Scope Z_scope.



End browsing_facts.

Section handler_facts.
Import Calendar.
Context {D Host : Type} `{!DateService D}.
Implicit Types (props : CalendarProps D Host) (s : State D) (d : D).

(** X9. A disabling predicate fails exactly when the date fits the bounds
    and the filter is provided and throws on it: the filter's error
    surfaces for dates within the bounds and for no other date. *)
Theorem disabled_fails_iff_filter_throws props d :
  (isDayDisabled props d = None
   ↔ isDateFitsBounds props d = true
     ∧ ∃ filter, props_filter props = Some filter ∧ filter d = None)
  ∧ (isMonthDisabled props d = None ↔ isDayDisabled props d = None)
  ∧ (isYearDisabled props d = None ↔ isDayDisabled props d = None).
Proof.
  split; [| done].
  unfold isDayDisabled, isDateFitsFilter.
  destruct (isDateFitsBounds props d); simpl.
  - destruct (props_filter props) as [filter |].
    + split.
      * intros Hnone. split; [done |]. exists filter. split; [done |].
        by destruct (filter d).
      * intros (_ & filter' & [= <-] & ->). done.
    + split; [done |]. by intros (_ & filter & ? & _).
  - split; [done |]. by intros [? _].
Qed.

(** X13. From any state, each of the three views is at most two presses on
    the header title away, and these presses leave the visible date as it
    is. *)
Theorem every_view_within_two_presses s (target : CalendarViewMode) :
  ∃ presses : nat,
    (presses ≤ 2)%nat
    ∧ Nat.iter presses onPickerNavigationPress s
      = Build_State target (visibleDate s).
Proof.
  destruct s as [mode visible].
  destruct mode, target;
    first [ by exists 0%nat; split; [lia |]
          | by exists 1%nat; split; [lia |]
          | by exists 2%nat; split; [lia |] ].
Qed.

End handler_facts.

Section display_facts.
Import Calendar CalendarView.
Context {D Host Theme : Type} `{!DateService D} `{!DateServiceDisplay D}.
Context `{!EqDecision Theme}.
Implicit Types (props : CalendarProps D Host) (s : State D) (d : D).

Local Open Scope Z_scope.

(** X10. In Year view the header title does not depend on the date it is
    asked for: it is the year of [min], a dash, and the year of [max] moved
    12 years on whenever that date compares later than [max], the year of
    [max] itself otherwise. *)
Theorem year_header_title props d d' :
  createHeaderTitle props d YEAR = createHeaderTitle props d' YEAR
  ∧ (0 < compareDates (addYear (max props) 12) (max props) →
     createHeaderTitle props d YEAR
     = format (min props) "YYYY" +:+ " - "
       +:+ format (addYear (max props) 12) "YYYY")
  ∧ (compareDates (addYear (max props) 12) (max props) ≤ 0 →
     createHeaderTitle props d YEAR
     = format (min props) "YYYY" +:+ " - " +:+ format (max props) "YYYY").
Proof.
  split; [done |].
  unfold createHeaderTitle.
  change (Z.of_nat YEARS_IN_VIEW) with 12.
  split; intros Hcompare.
  - by rewrite (proj2 (Z.ltb_lt _ _) Hcompare).
  - by rewrite (proj2 (Z.ltb_ge _ _) Hcompare).
Qed.

(** X11. With [date] omitted, the cell marked as selected is the cell
    marked as today, in the day, month and year pickers alike. *)
Theorem selected_is_today_by_default props d :
  props_date props = None →
  isDaySelected props d = isDayToday d
  ∧ isMonthSelected props d = isMonthToday d
  ∧ isYearSelected props d = isYearToday d.
Proof.
  intros Hdate.
  unfold isDaySelected, isMonthSelected, isYearSelected, date.
  by rewrite Hdate.
Qed.

(** X12. A day cell is left as it is exactly when its date compares equal
    to the new one and selection, disabling and theme are all unchanged;
    any single one of these changing makes it update. *)
Theorem day_element_kept_iff
    (cellProps nextProps : CalendarPickerCellProps D Theme) :
  shouldUpdateDayElement cellProps nextProps = false
  ↔ compareDatesSafe (cell_date cellProps) (cell_date nextProps) = 0
    ∧ cell_selected cellProps = cell_selected nextProps
    ∧ cell_disabled cellProps = cell_disabled nextProps
    ∧ cell_theme cellProps = cell_theme nextProps.
Proof.
  unfold shouldUpdateDayElement.
  destruct (Z.eqb_spec
              (compareDatesSafe (cell_date cellProps) (cell_date nextProps)) 0)
    as [Hdate | Hdate]; simpl; [| intuition congruence].
  destruct (cell_selected cellProps), (cell_selected nextProps); simpl;
    try (intuition congruence).
  all: destruct (cell_disabled cellProps), (cell_disabled nextProps); simpl;
    try (intuition congruence).
  all: rewrite negb_false_iff, bool_decide_eq_true; intuition congruence.
Qed.

End display_facts.

(** ** The further properties on Gregorian dates *)

Module GregorianMoreExamples.
Import Calendar CalendarView.
Import GregorianDate GregorianFacts GregorianDayFacts GregorianDisplay.

Local Open Scope Z_scope.





(** With nothing configured on 2 November 2026, the cell of 2029 in the
    year picker is disabled. *)
Lemma default_year_picker_cells_witness :
  let props := @defaultProps date host_log in
  let cell := addYear (getYearStart nov_2_2026) 3 in
  proj1_sig cell = YMD 2029 0 1
  ∧ (isDateFitsBounds props cell = true ↔ 3 = 0)
  ∧ isYearDisabled props cell = Some true.
Proof.
  intros props cell.
  split; [reflexivity |].
  pose proof (default_year_picker_cells
                (DateServiceLaws0 := service_laws nov_2_2026)
                props nov_2_2026 3 eq_refl eq_refl eq_refl)
    as [Hfits Hdisabled].
  split; [exact Hfits | apply Hdisabled; discriminate].
Defined.

(** With nothing configured on 2 November 2026, the 12 months of 2026 are
    all enabled. *)
Lemma default_month_picker_cells_witness :
  let props := @defaultProps date host_log in
  Forall (λ cell, isDateFitsBounds props cell = true)
         (concat (createMonthPickerData nov_2_2026))
  ∧ Forall (λ cell, isMonthDisabled props cell = Some false)
           (concat (createMonthPickerData nov_2_2026)).
Proof.
  intros props.
  pose proof (default_month_picker_cells
                (DateServiceLaws0 := service_laws nov_2_2026)
                props nov_2_2026 eq_refl eq_refl eq_refl)
    as [Hfits Henabled].
  split; [exact Hfits | exact (Henabled eq_refl)].
Defined.



(** Why the first day of the month matters: after a today press on
    31 January 2027 the cell of February shows 3 March 2027. *)
Example month_select_after_today_rolls_over :
  let s := @onTodayPress date (service jan_31_2027)
             (Build_State MONTH (mk (YMD 2027 0 1))) in
  proj1_sig (visibleDate s) = YMD 2027 0 31
  ∧ proj1_sig
      (visibleDate (@onMonthSelect date (service jan_31_2027)
                      (mk (YMD 2027 1 1)) s))
    = YMD 2027 2 3.
Proof. split; reflexivity. Qed.

(** The year header of the 2020-2045 calendar runs to 2057. *)
Lemma year_header_title_witness :
  let props := props_2020_2045 in
  0 < compareDates (addYear (max props) 12) (max props)
  ∧ createHeaderTitle props nov_2_2026 YEAR = "2020 - 2057".
Proof.
  intros props.
  split; [reflexivity |].
  rewrite (proj1 (proj2 (year_header_title props nov_2_2026 nov_2_2026)));
    [| reflexivity].
  vm_compute. reflexivity.
Defined.

(** With nothing configured, the selected day is today. *)
Lemma selected_is_today_by_default_witness :
  let props := @defaultProps date host_log in
  isDaySelected props nov_2_2026 = isDayToday nov_2_2026
  ∧ isDaySelected props nov_2_2026 = true.
Proof.
  intros props.
  split; [| reflexivity].
  apply (selected_is_today_by_default props nov_2_2026). reflexivity.
Defined.

End GregorianMoreExamples.

(** ** The timed date service satisfies the order and calendar laws *)

Module TimedFacts.
Import GregorianDate GregorianFacts GregorianDayFacts TimedDate.

Local Open Scope Z_scope.

Lemma mk_proj1_sig (c : date) : mk (proj1_sig c) = c.
Proof.
  apply (sig_eq_pi _). apply proj1_mk. by destruct c.
Qed.

Lemma ymd_create_id t :
  Is_true (valid t) → ymd_create (year t) (month t) (day t) = t.
Proof.
  intros Hvalid. apply valid_spec in Hvalid. unfold ymd_create.
  destruct (Z.leb_spec (day t) (daysInMonth (year t) (month t)));
    [by destruct t | lia].
Qed.

Lemma triple_valid (t : timed) :
  0 ≤ month (triple t) < 12 ∧ 1 ≤ day (triple t) ≤ 31.
Proof. apply date_valid. Qed.

(** What is at 00:00 is a day without a time of day, and conversely. *)
Lemma at_midnight_calendar (now : timed) (c : date) :
  @isCalendarDate timed (service now) (at_midnight c).
Proof.
  unfold isCalendarDate; simpl. unfold triple; simpl.
  rewrite ymd_create_id by (by destruct c).
  by rewrite mk_proj1_sig.
Qed.

Lemma calendar_minute (now : timed) (t : timed) :
  @isCalendarDate timed (service now) t → minute t = 0%nat.
Proof. unfold isCalendarDate; simpl. by intros <-. Qed.

Lemma ymd_compare_year a b : ymd_compare a b ≤ 0 → year a ≤ year b.
Proof.
  unfold ymd_compare.
  destruct (Z.compare_spec (year a) (year b)); lia.
Qed.

Lemma ymd_compare_zero a b : ymd_compare a b = 0 → year a = year b.
Proof.
  unfold ymd_compare.
  destruct (Z.compare_spec (year a) (year b));
    destruct (month a ?= month b); destruct (day a ?= day b); lia.
Qed.

Lemma ymd_compare_year_start t y :
  0 ≤ month t → 1 ≤ day t →
  0 ≤ ymd_compare t (YMD y 0 1) ↔ y ≤ year t.
Proof.
  intros Hmonth Hday. unfold ymd_compare; simpl.
  destruct (Z.compare_spec (year t) y);
    destruct (Z.compare_spec (month t) 0);
    destruct (Z.compare_spec (day t) 1); lia.
Qed.

Lemma ymd_compare_year_end t y :
  month t < 12 → day t ≤ 31 → year t ≤ y → ymd_compare t (YMD y 11 31) ≤ 0.
Proof.
  intros Hmonth Hday Hyear. unfold ymd_compare; simpl.
  destruct (Z.compare_spec (year t) y);
    destruct (Z.compare_spec (month t) 11);
    destruct (Z.compare_spec (day t) 31); lia.
Qed.

#[global] Instance service_order_laws (now : timed) :
  @DateServiceOrderLaws timed (service now).
Proof.
  split; simpl.
  - intros d a b. by rewrite andb_true_iff, !Z.leb_le.
  - intros d a. unfold timed_compare, triple; simpl.
    pose proof (triple_valid d) as [Hmonth Hday]. unfold triple in *.
    pose proof (ymd_compare_year_start (proj1_sig (calendar d))
                  (year (proj1_sig (calendar a)))) as Hstart.
    specialize (Hstart ltac:(lia) ltac:(lia)).
    destruct (Z.eqb_spec
                (ymd_compare (proj1_sig (calendar d))
                   (YMD (year (proj1_sig (calendar a))) 0 1)) 0)
      as [Hsame | Hother]; [| done].
    rewrite Hsame in Hstart. rewrite Z.sub_0_r, Z.sgn_nonneg. lia.
  - intros d b. unfold timed_compare, triple; simpl.
    destruct (Z.eqb_spec
                (ymd_compare (proj1_sig (calendar d))
                   (YMD (year (proj1_sig (calendar b))) 11 31)) 0)
      as [Hsame | Hother].
    + intros _. apply ymd_compare_zero in Hsame. simpl in Hsame. lia.
    + intros Hbefore. by apply ymd_compare_year in Hbefore.
Qed.

#[global] Instance service_calendar_laws (now : timed) :
  @DateServiceCalendarLaws timed (service now).
Proof.
  split.
  - intros d b Hcalendar Hyear. apply calendar_minute in Hcalendar.
    simpl in *. unfold timed_compare, triple in *; simpl.
    pose proof (triple_valid d) as [Hmonth Hday]. unfold triple in *.
    pose proof (ymd_compare_year_end (proj1_sig (calendar d))
                  (year (proj1_sig (calendar b)))) as Hend.
    rewrite Hcalendar; simpl.
    destruct (Z.eqb_spec
                (ymd_compare (proj1_sig (calendar d))
                   (YMD (year (proj1_sig (calendar b))) 11 31)) 0);
      [done | apply Hend; lia].
  - done.
  - done.
  - intros d. apply triple_valid.
  - intros d. apply triple_valid.
  - intros d; simpl. unfold triple; simpl.
    pose proof (triple_valid d) as [Hmonth _]. unfold triple in *.
    by rewrite proj1_mk_first.
  - intros y m d Hm Hd; simpl. unfold triple; simpl.
    destruct (ymd_create_valid y m d Hm Hd) as [Hvalid Hyear].
    by rewrite proj1_mk.
  - intros d i Hi; simpl. unfold triple; simpl.
    by rewrite ymd_addMonth_yearStart, proj1_mk_first.
  - done.
  - intros d. apply at_midnight_calendar.
  - intros y m d _ _. apply at_midnight_calendar.
  - intros d i _. apply at_midnight_calendar.
  - intros d k. apply at_midnight_calendar.
Qed.

End TimedFacts.

(** ** The bounds on dates with a time of day *)

Module TimedExamples.
Import Calendar Clocked GregorianDate TimedDate TimedFacts.

Local Open Scope Z_scope.

(** With nothing configured on 2 November 2026 at 14:30, the bounds run
    from 1 January 2026, 00:00 to 31 December 2026, 00:00; 15 June 2026 at
    10:00 fits them and is of the year 2026. *)
Lemma default_bounds_witness :
  let props := @defaultProps timed timed_host in
  let d := Timed (mk (YMD 2026 5 15)) 600 in
  min props = at_midnight (mk (YMD 2026 0 1))
  ∧ max props = at_midnight (mk (YMD 2026 11 31))
  ∧ Calendar.date props = nov_2_2026_1430
  ∧ isDateFitsBounds props d = true
  ∧ getYear d = getYear nov_2_2026_1430.
Proof.
  intros props d.
  pose proof (default_bounds
                (DateServiceOrderLaws0 := service_order_laws nov_2_2026_1430)
                props) as (Hmin & Hmax & Hdate & Hfits).
  split; [exact (Hmin eq_refl) |].
  split; [exact (Hmax eq_refl) |].
  split; [exact (Hdate eq_refl) |].
  split; [reflexivity |].
  exact (proj2 (Hfits eq_refl eq_refl d) eq_refl).
Defined.

(** The converse fails: 31 December 2026 at 12:00 is of the year of today
    and past the default [max], 31 December 2026 at 00:00. *)
Example year_end_noon_does_not_fit :
  getYear dec_31_2026_noon = getYear nov_2_2026_1430
  ∧ isDateFitsBounds (@defaultProps timed timed_host) dec_31_2026_noon
    = false.
Proof. split; reflexivity. Qed.

(** A today press made while today does not fit the bounds is not covered:
    with nothing configured, on 31 December 2026 at 12:00, it leaves the
    visible date past [max]. *)
Example today_press_on_year_end_leaves_bounds :
  let props := @defaultProps timed timed_host in
  let now := dec_31_2026_noon in
  let s' := Build_State DATE now in
  perform_at props now TodayPress (initialState_at props now) = Some s'
  ∧ isDateFitsBounds_at props now (visibleDate s') = false
  ∧ ¬ offered_at props now (initialState_at props now) TodayPress.
Proof.
  intros props now s'.
  split; [reflexivity |].
  split; [reflexivity |].
  unfold offered_at. by intros [=].
Qed.

(** The 2020-2045 calendar, created on 2 November 2026 at 14:30; a minute
    later the today button is pressed, then the cell of February: the
    visible date is 2 February 2026, 00:00. *)
Lemma visible_date_within_bounds_at_every_clock_witness :
  let props := props_whole_years in
  let a := at_midnight (mk (YMD 2020 0 1)) in
  let b := at_midnight (mk (YMD 2045 11 31)) in
  let s := Build_State DATE (at_midnight (mk (YMD 2026 1 2))) in
  (∀ now, clock_2020_2045 now →
     min_at props now = getYearStart a
     ∧ max_at props now = getYearEnd b
     ∧ getYear a ≤ getYear now ≤ getYear b)
  ∧ clock_2020_2045 nov_2_2026_1431
  ∧ reachable_at props clock_2020_2045 s
  ∧ isDateFitsBounds_at props nov_2_2026_1431 (visibleDate s) = true.
Proof.
  intros props a b s.
  assert (∀ now, clock_2020_2045 now →
            min_at props now = getYearStart a
            ∧ max_at props now = getYearEnd b
            ∧ getYear a ≤ getYear now ≤ getYear b) as Hclock.
  { intros now Hnow. split; [reflexivity |]. split; [reflexivity |].
    exact Hnow. }
  assert (clock_2020_2045 nov_2_2026_1430) as Hfirst
    by (vm_compute; split; discriminate).
  assert (clock_2020_2045 nov_2_2026_1431) as Hsecond
    by (vm_compute; split; discriminate).
  assert (reachable_at props clock_2020_2045 s) as Hreachable.
  { apply (reachable_at_step props _ nov_2_2026_1431
             (Build_State DATE nov_2_2026_1431)
             (MonthSelect (at_midnight (mk (YMD 2026 1 1)))));
      [exact Hsecond | | exact I | reflexivity].
    apply (reachable_at_step props _ nov_2_2026_1431
             (initialState_at props nov_2_2026_1430) TodayPress);
      [exact Hsecond | | reflexivity | reflexivity].
    apply reachable_at_init. exact Hfirst. }
  split; [exact Hclock |].
  split; [exact Hsecond |].
  split; [exact Hreachable |].
  exact (visible_date_within_bounds_at_every_clock
           (DateServiceOrderLaws0 := service_order_laws nov_2_2026_1430)
           (DateServiceCalendarLaws0 := service_calendar_laws nov_2_2026_1430)
           props a b clock_2020_2045 s Hclock Hreachable
           nov_2_2026_1431 Hsecond).
Defined.

End TimedExamples.
